(** * MQTT configuration parameters

    A verification model of [conf/mqtt_conf_params.py]: the class
    [MqttConfigurationParameters], whose body binds eight class attributes,
    one of them computed with [str.format] from an earlier one.

    The class body is embedded as a program in a small state-and-exception
    monad over the frame in which Python executes it; the class object it
    produces, the instances made from it and attribute access on both are
    embedded as operations on an explicit store. *)

From stdpp Require Import gmap strings list.
From Stdlib Require Import Ascii ZArith Numbers.DecimalString.

Local Open Scope Z_scope.

(** ** Values, exceptions and the monad *)

(** The values the class body manipulates: [str] and [int] objects.  A Python
    [int] is unbounded, hence [Z].  A [str] is modelled by the bytes of its
    UTF-8 encoding; every string literal of the source is ASCII. *)
Inductive value : Type :=
  | VStr (s : string)
  | VInt (z : Z).

(** The exceptions that can arise in the fragment.  [NotModelled] marks a use
    of a Python feature that lies outside the fragment embedded here. *)
Inductive exn : Type :=
  | NameError
  | AttributeError
  | ValueError
  | IndexError
  | NotModelled.

Inductive result (A : Type) : Type :=
  | Ok (a : A)
  | Raise (e : exn).
Arguments Ok {A} a.
Arguments Raise {A} e.

Definition result_map {A B : Type} (f : A → B) (r : result A) : result B :=
  match r with
  | Ok a => Ok (f a)
  | Raise e => Raise e
  end.

(** A computation over a store [St]: it yields a value or raises, and in both
    cases leaves a store behind (an exception does not roll anything back). *)
Definition Py (St A : Type) : Type := St → result A * St.

Definition py_ret {St A : Type} (a : A) : Py St A := λ st, (Ok a, st).

Definition py_bind {St A B : Type} (m : Py St A) (k : A → Py St B) : Py St B :=
  λ st, match m st with
        | (Ok a, st') => k a st'
        | (Raise e, st') => (Raise e, st')
        end.

Definition py_raise {St A : Type} (e : exn) : Py St A := λ st, (Raise e, st).

Definition py_lift {St A : Type} (r : result A) : Py St A := λ st, (r, st).

Declare Scope py_scope.
Delimit Scope py_scope with py.
Notation "x ← m ; k" := (py_bind m (λ x, k))
  (at level 20, m at level 100, k at level 200, only parsing) : py_scope.
Notation "m ;; k" := (py_bind m (λ _, k))
  (at level 100, k at level 200, right associativity) : py_scope.

(** ** [str.format] *)

(** Rendering of a replacement field's argument with an empty format
    specification: a [str] is inserted as it is, an [int] in decimal.  The
    interpreter's limit on the length of integer-to-string conversions is not
    embedded: every integer is rendered. *)
Definition format_value (v : value) : string :=
  match v with
  | VStr s => s
  | VInt z => NilZero.string_of_int (Z.to_int z)
  end.

(** Field numbering, as the formatter tracks it: not yet decided, automatic
    (with the next index to hand out), or manual. *)
Inductive auto_number : Type :=
  | ANS_INIT
  | ANS_AUTO (next : nat)
  | ANS_MANUAL.

(** Where the scanner is: in literal text, or inside a replacement field whose
    digits read so far denote [idx] ([None]: no character read yet). *)
Inductive scan : Type :=
  | InText
  | InField (idx : option nat).

Definition digit_of (c : ascii) : option nat :=
  let n := nat_of_ascii c in
  if ((48 <=? n)%nat && (n <=? 57)%nat)%bool then Some (n - 48)%nat else None.

(** The argument index of a finished field, and the numbering state after it.
    An empty field name takes the next automatic index; mixing automatic and
    manual numbering is a [ValueError]. *)
Definition field_index (an : auto_number) (idx : option nat)
  : result (nat * auto_number) :=
  match idx, an with
  | None, ANS_INIT => Ok (0%nat, ANS_AUTO 1)
  | None, ANS_AUTO n => Ok (n, ANS_AUTO (S n))
  | None, ANS_MANUAL => Raise ValueError
  | Some i, ANS_AUTO _ => Raise ValueError
  | Some i, _ => Ok (i, ANS_MANUAL)
  end.

(** One left-to-right pass over the template.  The fragment covers literal
    text, the escapes [{{] and [}}], and the fields [{}] and [{N}]; named
    fields, attribute and index lookups, conversions and format
    specifications are [NotModelled]. *)
Fixpoint format_scan (args : list value) (an : auto_number) (sc : scan)
    (s : string) : result string :=
  match sc, s with
  | InText, EmptyString => Ok EmptyString
  | InText, String c rest =>
      if Ascii.eqb c "{" then
        match rest with
        | String c' rest' =>
            if Ascii.eqb c' "{"
            then result_map (String "{") (format_scan args an InText rest')
            else format_scan args an (InField None) rest
        | EmptyString => Raise ValueError
        end
      else if Ascii.eqb c "}" then
        match rest with
        | String c' rest' =>
            if Ascii.eqb c' "}"
            then result_map (String "}") (format_scan args an InText rest')
            else Raise ValueError
        | EmptyString => Raise ValueError
        end
      else result_map (String c) (format_scan args an InText rest)
  | InField _, EmptyString => Raise ValueError
  | InField idx, String c rest =>
      if Ascii.eqb c "}" then
        match field_index an idx with
        | Raise e => Raise e
        | Ok (i, an') =>
            match args !! i with
            | None => Raise IndexError
            | Some v =>
                result_map (String.append (format_value v))
                           (format_scan args an' InText rest)
            end
        end
      else
        match digit_of c with
        | Some d => format_scan args an (InField (Some (10 * default 0 idx + d)%nat)) rest
        | None => Raise NotModelled
        end
  end.

(** The method [format] of a [str], applied to positional arguments. *)
Definition str_format (template : string) (args : list value) : result string :=
  format_scan args ANS_INIT InText template.


(** ** Frames and the statements of a class body *)

(** The frame a class body runs in.  A name is read from the class namespace
    under construction, then from the globals of the enclosing module, then
    from the builtins; a name is always written to the class namespace. *)
Record frame : Type := Frame {
  f_locals : gmap string value;
  f_globals : gmap string value;
  f_builtins : gmap string value
}.

Definition load_const (v : value) : Py frame value := py_ret v.

Definition load_name (x : string) : Py frame value :=
  λ fr,
    match f_locals fr !! x with
    | Some v => (Ok v, fr)
    | None =>
        match f_globals fr !! x with
        | Some v => (Ok v, fr)
        | None =>
            match f_builtins fr !! x with
            | Some v => (Ok v, fr)
            | None => (Raise NameError, fr)
            end
        end
    end.

Definition store_name (x : string) (v : value) : Py frame unit :=
  λ fr, (Ok tt, Frame (<[x := v]> (f_locals fr)) (f_globals fr) (f_builtins fr)).

(** [recv.format(args)]: only a [str] has the method. *)
Definition call_format {St : Type} (recv : value) (args : list value) : Py St value :=
  match recv with
  | VStr template => py_lift (result_map VStr (str_format template args))
  | VInt _ => py_raise AttributeError
  end.

(** The assignment statement [x = e]. *)
Definition assign (x : string) (e : Py frame value) : Py frame unit :=
  (v ← e; store_name x v)%py.

(** ** The class body, statement by statement *)

Module MqttConfigurationParameters.

Local Open Scope py_scope.

(** [BROKER_ADDRESS = "<BROKER_IP_ADDRESS>"] *)
Definition stmt_BROKER_ADDRESS : Py frame unit :=
  assign "BROKER_ADDRESS" (load_const (VStr "<BROKER_IP_ADDRESS>")).

(** [BROKER_PORT = 7883] *)
Definition stmt_BROKER_PORT : Py frame unit :=
  assign "BROKER_PORT" (load_const (VInt 7883)).

(** [MQTT_USERNAME = "<your_username>"] *)
Definition stmt_MQTT_USERNAME : Py frame unit :=
  assign "MQTT_USERNAME" (load_const (VStr "<your_username>")).

(** [MQTT_PASSWORD = "<your_password>"] *)
Definition stmt_MQTT_PASSWORD : Py frame unit :=
  assign "MQTT_PASSWORD" (load_const (VStr "<your_password>")).

(** [MQTT_BASIC_TOPIC = "/iot/user/{0}".format(MQTT_USERNAME)] *)
Definition stmt_MQTT_BASIC_TOPIC : Py frame unit :=
  assign "MQTT_BASIC_TOPIC"
    (template ← load_const (VStr "/iot/user/{0}");
     username ← load_name "MQTT_USERNAME";
     call_format template [username]).

(** [VEHICLE_TOPIC = "vehicle"] *)
Definition stmt_VEHICLE_TOPIC : Py frame unit :=
  assign "VEHICLE_TOPIC" (load_const (VStr "vehicle")).

(** [VEHICLE_TELEMETRY_TOPIC = "telemetry"] *)
Definition stmt_VEHICLE_TELEMETRY_TOPIC : Py frame unit :=
  assign "VEHICLE_TELEMETRY_TOPIC" (load_const (VStr "telemetry")).

(** [VEHICLE_INFO_TOPIC = "info"] *)
Definition stmt_VEHICLE_INFO_TOPIC : Py frame unit :=
  assign "VEHICLE_INFO_TOPIC" (load_const (VStr "info")).

(** The body of [class MqttConfigurationParameters(object)], in source order:
    the eight statements of the source text.  The bookkeeping assignments the
    compiler puts in front of every class body (of [__module__] and
    [__qualname__]) are not in the source and are not embedded. *)
Definition body : Py frame unit :=
  stmt_BROKER_ADDRESS ;;
  stmt_BROKER_PORT ;;
  stmt_MQTT_USERNAME ;;
  stmt_MQTT_PASSWORD ;;
  stmt_MQTT_BASIC_TOPIC ;;
  stmt_VEHICLE_TOPIC ;;
  stmt_VEHICLE_TELEMETRY_TOPIC ;;
  stmt_VEHICLE_INFO_TOPIC.

End MqttConfigurationParameters.

(** ** Class objects, instances and attribute access *)

(** A class object: its own namespace, and the namespaces of the classes that
    follow it in its method resolution order. *)
Record class_obj : Type := Class {
  cls_name : string;
  cls_dict : gmap string value;
  cls_bases : list (gmap string value)
}.

(** What surrounds the class statement when the module is executed: the
    module's globals and the builtins, the namespace the interpreter hands to
    the class body (it holds the special names the class machinery sets, none
    of which the source mentions), and the namespace of the base [object]. *)
Record environment : Type := Environment {
  env_globals : gmap string value;
  env_builtins : gmap string value;
  env_prepared : gmap string value;
  env_object : gmap string value
}.

(** The class statement: run the body in a fresh frame, then build the class
    from the namespace the body leaves.  An exception in the body propagates
    and no class is made. *)
Definition class_statement (env : environment) : result class_obj :=
  match MqttConfigurationParameters.body
          (Frame (env_prepared env) (env_globals env) (env_builtins env)) with
  | (Ok _, fr) => Ok (Class "MqttConfigurationParameters" (f_locals fr) [env_object env])
  | (Raise e, _) => Raise e
  end.

(** The store after import: the class object, shared by everything that refers
    to it, and the attribute dictionaries of the instances made so far (an
    instance is referred to by its position). *)
Record world : Type := World {
  w_class : class_obj;
  w_objects : list (gmap string value)
}.

Definition import_module (env : environment) : result world :=
  result_map (λ c, World c []) (class_statement env).

(** Lookup along a method resolution order: the first namespace that binds the
    name wins. *)
Fixpoint mro_lookup (x : string) (mro : list (gmap string value)) : option value :=
  match mro with
  | [] => None
  | ns :: mro' =>
      match ns !! x with
      | Some v => Some v
      | None => mro_lookup x mro'
      end
  end.

Definition class_mro (c : class_obj) : list (gmap string value) :=
  cls_dict c :: cls_bases c.

Definition found (o : option value) : result value :=
  match o with
  | Some v => Ok v
  | None => Raise AttributeError
  end.

(** [MqttConfigurationParameters.x].  The values of the fragment are [str]
    and [int] objects, which are not descriptors, so what the lookup finds is
    what the read returns.  The embedding is of ordinary names: the special
    names that the metatype answers ([__name__], [__doc__], [mro] and the
    like) are outside it. *)
Definition getattr_class (x : string) : Py world value :=
  λ w, (found (mro_lookup x (class_mro (w_class w))), w).

(** [MqttConfigurationParameters.x = v], for an ordinary name [x]; the
    special names whose assignment the metatype checks are outside the
    embedding. *)
Definition setattr_class (x : string) (v : value) : Py world unit :=
  λ w,
    let c := w_class w in
    (Ok tt, World (Class (cls_name c) (<[x := v]> (cls_dict c)) (cls_bases c))
                  (w_objects w)).

(** [MqttConfigurationParameters()]: a new instance with an empty attribute
    dictionary; the class defines no [__init__]. *)
Definition instantiate : Py world nat :=
  λ w, (Ok (length (w_objects w)), World (w_class w) (w_objects w ++ [∅])).

(** [obj.x]: the instance's own dictionary, then the class. *)
Definition getattr_object (obj : nat) (x : string) : Py world value :=
  λ w,
    match w_objects w !! obj with
    | None => (Raise NotModelled, w)
    | Some d =>
        match d !! x with
        | Some v => (Ok v, w)
        | None => (found (mro_lookup x (class_mro (w_class w))), w)
        end
    end.

(** [obj.x = v], for an ordinary name [x]: always into the instance's own
    dictionary.  The special names that are data descriptors on the type
    ([__class__], [__dict__]) are outside the embedding. *)
Definition setattr_object (obj : nat) (x : string) (v : value) : Py world unit :=
  λ w,
    match w_objects w !! obj with
    | None => (Raise NotModelled, w)
    | Some d => (Ok tt, World (w_class w) (<[obj := <[x := v]> d]> (w_objects w)))
    end.

(** The eight attributes the class body binds. *)
Inductive attribute : Type :=
  | BROKER_ADDRESS
  | BROKER_PORT
  | MQTT_USERNAME
  | MQTT_PASSWORD
  | MQTT_BASIC_TOPIC
  | VEHICLE_TOPIC
  | VEHICLE_TELEMETRY_TOPIC
  | VEHICLE_INFO_TOPIC.

Definition attr_name (a : attribute) : string :=
  match a with
  | BROKER_ADDRESS => "BROKER_ADDRESS"
  | BROKER_PORT => "BROKER_PORT"
  | MQTT_USERNAME => "MQTT_USERNAME"
  | MQTT_PASSWORD => "MQTT_PASSWORD"
  | MQTT_BASIC_TOPIC => "MQTT_BASIC_TOPIC"
  | VEHICLE_TOPIC => "VEHICLE_TOPIC"
  | VEHICLE_TELEMETRY_TOPIC => "VEHICLE_TELEMETRY_TOPIC"
  | VEHICLE_INFO_TOPIC => "VEHICLE_INFO_TOPIC"
  end.

(** The result and the final store of a computation. *)
Definition run {St A : Type} (m : Py St A) (st : St) : result A := fst (m st).
Definition exec {St A : Type} (m : Py St A) (st : St) : St := snd (m st).

(** Import the module in [env], then read the class attribute [x]. *)
Definition read_class (env : environment) (x : string) : result value :=
  match import_module env with
  | Ok w => run (getattr_class x) w
  | Raise e => Raise e
  end.

(** Accesses that only read or instantiate, and the store each leaves. *)
Inductive access : Type :=
  | ReadClass (x : string)
  | ReadObject (obj : nat) (x : string)
  | Instantiate.

Definition perform (w : world) (a : access) : world :=
  match a with
  | ReadClass x => exec (getattr_class x) w
  | ReadObject obj x => exec (getattr_object obj x) w
  | Instantiate => exec instantiate w
  end.

Definition after (prior : list access) (w : world) : world :=
  fold_left perform prior w.

(** A reassignment of the attribute [MQTT_USERNAME] after the class exists,
    on the class itself or on one of its instances. *)
Inductive reassignment : Type :=
  | OnClass (v : value)
  | OnObject (obj : nat) (v : value).

Definition reassign_one (w : world) (r : reassignment) : world :=
  match r with
  | OnClass v => exec (setattr_class "MQTT_USERNAME" v) w
  | OnObject obj v => exec (setattr_object obj "MQTT_USERNAME" v) w
  end.

Definition reassign (rs : list reassignment) (w : world) : world :=
  fold_left reassign_one rs w.

(** The frame after binding [x] to [v] in the class namespace. *)
Definition bound (x : string) (v : value) (fr : frame) : frame :=
  Frame (<[x := v]> (f_locals fr)) (f_globals fr) (f_builtins fr).

(** ** String predicates used to state the shape of topics *)

(** [c in s] for a single character [c]. *)
Fixpoint contains_char (c : ascii) (s : string) : bool :=
  match s with
  | EmptyString => false
  | String c' s' => Ascii.eqb c c' || contains_char c s'
  end.

(** [s.startswith(p)] *)
Definition startswith (p s : string) : bool := String.prefix p s.

(** [s.endswith(p)] *)
Definition endswith (p s : string) : bool :=
  (String.length p <=? String.length s)%nat
  && String.eqb (String.substring (String.length s - String.length p) (String.length p) s) p.

(** * Properties *)

Import MqttConfigurationParameters.

(** ** [str.format] on small templates *)

Example str_format_escape :
  str_format "{{{1}}}-{0}" [VStr "a"; VInt (-12)] = Ok "{-12}-a".
Proof. reflexivity. Qed.

Example str_format_auto :
  str_format "{}+{}" [VInt 1; VStr "b"] = Ok "1+b".
Proof. reflexivity. Qed.

Example str_format_mixed :
  str_format "{0}{}" [VStr "a"; VStr "b"] = Raise ValueError.
Proof. reflexivity. Qed.

Example str_format_range : str_format "{1}" [VStr "a"] = Raise IndexError.
Proof. reflexivity. Qed.

Example str_format_single : str_format "a}b" [] = Raise ValueError.
Proof. reflexivity. Qed.

Lemma append_cons (c : ascii) (s t : string) :
  String c s +:+ t = String c (s +:+ t).
Proof. reflexivity. Qed.

Lemma append_empty_r (s : string) : s +:+ "" = s.
Proof.
  induction s as [|c s IH]; [done |]. by rewrite append_cons, IH.
Qed.

(** The topic template has one field, the last thing in it: formatting puts
    the rendering of the argument after the literal prefix. *)
Lemma format_topic_template (v : value) (rest : list value) :
  str_format "/iot/user/{0}" (v :: rest) = Ok ("/iot/user/" +:+ format_value v).
Proof.
  unfold str_format. simpl. by rewrite append_empty_r.
Qed.

(** ** Statements *)

Lemma assign_const (x : string) (v : value) (fr : frame) :
  assign x (load_const v) fr = (Ok tt, bound x v fr).
Proof. reflexivity. Qed.

Lemma load_name_local (x : string) (v : value) (fr : frame) :
  f_locals fr !! x = Some v → load_name x fr = (Ok v, fr).
Proof. intros H. unfold load_name. by rewrite H. Qed.

Lemma load_name_frame (x : string) (fr : frame) : snd (load_name x fr) = fr.
Proof. unfold load_name. by repeat case_match. Qed.

(** The statement that derives the basic topic, in a frame where the name
    [MQTT_USERNAME] resolves to [v]. *)
Lemma basic_topic_statement (v : value) (fr : frame) :
  run (load_name "MQTT_USERNAME") fr = Ok v →
  stmt_MQTT_BASIC_TOPIC fr =
    (Ok tt, bound "MQTT_BASIC_TOPIC" (VStr ("/iot/user/" +:+ format_value v)) fr).
Proof.
  intros H. unfold stmt_MQTT_BASIC_TOPIC, assign, py_bind, load_const, py_ret.
  pose proof (load_name_frame "MQTT_USERNAME" fr) as Hfr.
  unfold run in H. destruct (load_name "MQTT_USERNAME" fr) as [r fr'].
  simpl in H, Hfr. subst r fr'.
  unfold call_format, py_lift. by rewrite format_topic_template.
Qed.

(** The namespace the class body leaves: the eight bindings, in source order,
    over whatever the namespace held before. *)
Lemma body_runs (fr : frame) :
  body fr =
    (Ok tt,
     bound "VEHICLE_INFO_TOPIC" (VStr "info")
       (bound "VEHICLE_TELEMETRY_TOPIC" (VStr "telemetry")
          (bound "VEHICLE_TOPIC" (VStr "vehicle")
             (bound "MQTT_BASIC_TOPIC" (VStr "/iot/user/<your_username>")
                (bound "MQTT_PASSWORD" (VStr "<your_password>")
                   (bound "MQTT_USERNAME" (VStr "<your_username>")
                      (bound "BROKER_PORT" (VInt 7883)
                         (bound "BROKER_ADDRESS" (VStr "<BROKER_IP_ADDRESS>") fr)))))))).
Proof.
  unfold body.
  unfold py_bind at 1. unfold stmt_BROKER_ADDRESS. rewrite assign_const.
  unfold py_bind at 1. unfold stmt_BROKER_PORT. rewrite assign_const.
  unfold py_bind at 1. unfold stmt_MQTT_USERNAME. rewrite assign_const.
  unfold py_bind at 1. unfold stmt_MQTT_PASSWORD. rewrite assign_const.
  unfold py_bind at 1.
  rewrite (basic_topic_statement (VStr "<your_username>")).
  2:{ unfold run. erewrite load_name_local; [done |].
      simpl. rewrite lookup_insert_ne by done. apply lookup_insert_eq. }
  unfold py_bind at 1. unfold stmt_VEHICLE_TOPIC. rewrite assign_const.
  unfold py_bind at 1. unfold stmt_VEHICLE_TELEMETRY_TOPIC. rewrite assign_const.
  unfold stmt_VEHICLE_INFO_TOPIC. by rewrite assign_const.
Qed.

(** ** The class object *)

Lemma class_statement_ok (env : environment) :
  class_statement env =
    Ok (Class "MqttConfigurationParameters"
          (f_locals (exec body (Frame (env_prepared env) (env_globals env)
                                      (env_builtins env))))
          [env_object env]).
Proof. unfold class_statement, exec. by rewrite body_runs. Qed.

Lemma import_module_ok (env : environment) :
  ∃ w, import_module env = Ok w
       ∧ w_objects w = []
       ∧ cls_bases (w_class w) = [env_object env]
       ∧ cls_dict (w_class w) =
           f_locals (exec body (Frame (env_prepared env) (env_globals env)
                                      (env_builtins env))).
Proof.
  unfold import_module. rewrite class_statement_ok. simpl. eauto.
Qed.

(** Every attribute is bound in the namespace the body leaves, whatever the
    frame it started from. *)
Lemma body_binds (fr : frame) (a : attribute) :
  f_locals (exec body fr) !! attr_name a =
    Some match a with
         | BROKER_ADDRESS => VStr "<BROKER_IP_ADDRESS>"
         | BROKER_PORT => VInt 7883
         | MQTT_USERNAME => VStr "<your_username>"
         | MQTT_PASSWORD => VStr "<your_password>"
         | MQTT_BASIC_TOPIC => VStr "/iot/user/<your_username>"
         | VEHICLE_TOPIC => VStr "vehicle"
         | VEHICLE_TELEMETRY_TOPIC => VStr "telemetry"
         | VEHICLE_INFO_TOPIC => VStr "info"
         end.
Proof.
  unfold exec. rewrite body_runs. unfold bound. cbn [snd f_locals].
  destruct a; cbn [attr_name];
    repeat (rewrite lookup_insert_ne by done); apply lookup_insert_eq.
Qed.

Lemma getattr_class_own (w : world) (x : string) (v : value) :
  cls_dict (w_class w) !! x = Some v → getattr_class x w = (Ok v, w).
Proof. intros H. unfold getattr_class, class_mro. simpl. by rewrite H. Qed.

Lemma read_class_bound (env : environment) (a : attribute) (v : value) :
  (∀ fr, f_locals (exec body fr) !! attr_name a = Some v) →
  read_class env (attr_name a) = Ok v.
Proof.
  intros H. unfold read_class.
  destruct (import_module_ok env) as (w & -> & _ & _ & Hd).
  unfold run. erewrite getattr_class_own; [done |]. rewrite Hd. apply H.
Qed.

Ltac read_attribute a :=
  apply (read_class_bound _ a); intros; apply (body_binds _ a).

(** The model runs: importing in an empty environment, and in one whose
    globals and prepared namespace already bind [MQTT_USERNAME]. *)
Example import_in_empty_environment :
  read_class (Environment ∅ ∅ ∅ ∅) "MQTT_BASIC_TOPIC"
    = Ok (VStr "/iot/user/<your_username>").
Proof. vm_compute. reflexivity. Qed.

Example import_under_shadowing :
  read_class (Environment {["MQTT_USERNAME" := VStr "mallory"]} ∅
                          {["MQTT_USERNAME" := VInt 7]} ∅)
             "MQTT_BASIC_TOPIC"
    = Ok (VStr "/iot/user/<your_username>").
Proof. vm_compute. reflexivity. Qed.

Example missing_attribute :
  read_class (Environment ∅ ∅ ∅ ∅) "BROKER" = Raise AttributeError.
Proof. vm_compute. reflexivity. Qed.

Example username_of_other_type :
  run (store_name "MQTT_USERNAME" (VInt 42) ;; stmt_MQTT_BASIC_TOPIC ;;
       load_name "MQTT_BASIC_TOPIC")%py (Frame ∅ ∅ ∅)
    = Ok (VStr "/iot/user/42").
Proof. vm_compute. reflexivity. Qed.

(** ** The derived basic topic *)

(** C1: for every username [u], formatting the template ["/iot/user/{0}"]
    with [u] gives the prefix ["/iot/user/"] followed by [u]; the statement
    that defines [MQTT_BASIC_TOPIC] binds exactly that string in any frame
    where [MQTT_USERNAME] resolves to [u]; the class as defined has
    [MQTT_BASIC_TOPIC] equal to the prefix followed by its [MQTT_USERNAME];
    and the username ["alice"] gives ["/iot/user/alice"]. *)
Theorem basic_topic_is_prefix_and_username (u : string) (fr : frame)
    (Hu : run (load_name "MQTT_USERNAME") fr = Ok (VStr u)) :
  str_format "/iot/user/{0}" [VStr u] = Ok ("/iot/user/" +:+ u)
  ∧ stmt_MQTT_BASIC_TOPIC fr =
      (Ok tt, bound "MQTT_BASIC_TOPIC" (VStr ("/iot/user/" +:+ u)) fr)
  ∧ (∀ env, ∃ name,
        read_class env "MQTT_USERNAME" = Ok (VStr name)
        ∧ read_class env "MQTT_BASIC_TOPIC" = Ok (VStr ("/iot/user/" +:+ name)))
  ∧ str_format "/iot/user/{0}" [VStr "alice"] = Ok "/iot/user/alice".
Proof.
  split; [apply (format_topic_template (VStr u)) |].
  split; [apply (basic_topic_statement (VStr u)), Hu |].
  split; [| reflexivity].
  intros env. exists "<your_username>". split.
  - read_attribute MQTT_USERNAME.
  - read_attribute MQTT_BASIC_TOPIC.
Qed.

Lemma basic_topic_for_alice :
  run (load_name "MQTT_USERNAME") (Frame {["MQTT_USERNAME" := VStr "alice"]} ∅ ∅)
    = Ok (VStr "alice")
  ∧ stmt_MQTT_BASIC_TOPIC (Frame {["MQTT_USERNAME" := VStr "alice"]} ∅ ∅) =
      (Ok tt,
       bound "MQTT_BASIC_TOPIC" (VStr "/iot/user/alice")
         (Frame {["MQTT_USERNAME" := VStr "alice"]} ∅ ∅)).
Proof.
  split; [reflexivity |].
  apply (basic_topic_is_prefix_and_username "alice"
           (Frame {["MQTT_USERNAME" := VStr "alice"]} ∅ ∅)).
  reflexivity.
Defined.

(** C9: the basic topic of the class as defined is
    ["/iot/user/<your_username>"]: the username is the placeholder
    ["<your_username>"] when the topic is derived, and the topic ends with
    that placeholder text. *)
Theorem basic_topic_holds_placeholder (env : environment) :
  read_class env "MQTT_BASIC_TOPIC" = Ok (VStr "/iot/user/<your_username>")
  ∧ read_class env "MQTT_USERNAME" = Ok (VStr "<your_username>")
  ∧ "/iot/user/<your_username>" = "/iot/user/" +:+ "<your_username>"
  ∧ endswith "<your_username>" "/iot/user/<your_username>" = true.
Proof.
  split; [read_attribute MQTT_BASIC_TOPIC |].
  split; [read_attribute MQTT_USERNAME |].
  split; reflexivity.
Qed.

(** ** The literal attributes *)

(** C3: [BROKER_PORT] is the integer 7883, a positive integer within the
    port range 1..65535. *)
Theorem broker_port_value (env : environment) :
  ∃ p : Z, read_class env "BROKER_PORT" = Ok (VInt p)
           ∧ p = 7883 ∧ 0 < p ∧ 1 ≤ p ≤ 65535.
Proof.
  exists 7883. split; [read_attribute BROKER_PORT | lia].
Qed.

(** C4: [VEHICLE_TOPIC] is ["vehicle"], [VEHICLE_TELEMETRY_TOPIC] is
    ["telemetry"] and [VEHICLE_INFO_TOPIC] is ["info"]. *)
Theorem topic_segment_values (env : environment) :
  read_class env "VEHICLE_TOPIC" = Ok (VStr "vehicle")
  ∧ read_class env "VEHICLE_TELEMETRY_TOPIC" = Ok (VStr "telemetry")
  ∧ read_class env "VEHICLE_INFO_TOPIC" = Ok (VStr "info").
Proof.
  split; [read_attribute VEHICLE_TOPIC |].
  split; [read_attribute VEHICLE_TELEMETRY_TOPIC | read_attribute VEHICLE_INFO_TOPIC].
Qed.

(** C5: each topic segment is bound by assigning a string literal that is not
    empty; evaluating the literal yields it and leaves the frame as it was,
    and the assignment changes nothing but the binding of its own name. *)
Theorem topic_segments_are_literals (env : environment) (fr : frame) :
  Forall (λ '(x, stmt),
            ∃ s : string,
              s ≠ ""
              ∧ stmt = assign x (load_const (VStr s))
              ∧ load_const (VStr s) fr = (Ok (VStr s), fr)
              ∧ stmt fr = (Ok tt, bound x (VStr s) fr)
              ∧ read_class env x = Ok (VStr s))
         [("VEHICLE_TOPIC", stmt_VEHICLE_TOPIC);
          ("VEHICLE_TELEMETRY_TOPIC", stmt_VEHICLE_TELEMETRY_TOPIC);
          ("VEHICLE_INFO_TOPIC", stmt_VEHICLE_INFO_TOPIC)].
Proof.
  constructor; [| constructor; [| constructor; [| constructor]]].
  - exists "vehicle". repeat split; [done | read_attribute VEHICLE_TOPIC].
  - exists "telemetry".
    repeat split; [done | read_attribute VEHICLE_TELEMETRY_TOPIC].
  - exists "info". repeat split; [done | read_attribute VEHICLE_INFO_TOPIC].
Qed.

(** C7: [BROKER_ADDRESS], [MQTT_USERNAME] and [MQTT_PASSWORD] hold the
    placeholders ["<BROKER_IP_ADDRESS>"], ["<your_username>"] and
    ["<your_password>"]; each is bound by a plain assignment of the literal,
    which succeeds in every frame, so nothing checks them. *)
Theorem placeholders_stored_unchecked (env : environment) (fr : frame) :
  read_class env "BROKER_ADDRESS" = Ok (VStr "<BROKER_IP_ADDRESS>")
  ∧ read_class env "MQTT_USERNAME" = Ok (VStr "<your_username>")
  ∧ read_class env "MQTT_PASSWORD" = Ok (VStr "<your_password>")
  ∧ stmt_BROKER_ADDRESS fr =
      (Ok tt, bound "BROKER_ADDRESS" (VStr "<BROKER_IP_ADDRESS>") fr)
  ∧ stmt_MQTT_USERNAME fr =
      (Ok tt, bound "MQTT_USERNAME" (VStr "<your_username>") fr)
  ∧ stmt_MQTT_PASSWORD fr =
      (Ok tt, bound "MQTT_PASSWORD" (VStr "<your_password>") fr).
Proof.
  split; [read_attribute BROKER_ADDRESS |].
  split; [read_attribute MQTT_USERNAME |].
  split; [read_attribute MQTT_PASSWORD |].
  repeat split.
Qed.

(** ** The shape of topics *)

(** C10: no topic segment contains ["/"]; the basic topic starts with ["/"]
    and does not end with ["/"]; so the basic topic followed directly by a
    segment is not the path with a separator between them. *)
Theorem topic_separator_shape (env : environment) :
  ∃ basic vehicle telemetry info : string,
    read_class env "MQTT_BASIC_TOPIC" = Ok (VStr basic)
    ∧ read_class env "VEHICLE_TOPIC" = Ok (VStr vehicle)
    ∧ read_class env "VEHICLE_TELEMETRY_TOPIC" = Ok (VStr telemetry)
    ∧ read_class env "VEHICLE_INFO_TOPIC" = Ok (VStr info)
    ∧ Forall (λ seg, contains_char "/" seg = false) [vehicle; telemetry; info]
    ∧ startswith "/" basic = true
    ∧ endswith "/" basic = false
    ∧ Forall (λ seg, basic +:+ seg ≠ basic +:+ "/" +:+ seg)
             [vehicle; telemetry; info].
Proof.
  exists "/iot/user/<your_username>", "vehicle", "telemetry", "info".
  split; [read_attribute MQTT_BASIC_TOPIC |].
  split; [read_attribute VEHICLE_TOPIC |].
  split; [read_attribute VEHICLE_TELEMETRY_TOPIC |].
  split; [read_attribute VEHICLE_INFO_TOPIC |].
  split; [by repeat constructor |].
  split; [reflexivity |].
  split; [reflexivity |].
  repeat constructor; discriminate.
Qed.

(** ** Reading attributes *)

Lemma getattr_class_spec (w : world) (x : string) :
  getattr_class x w = (found (mro_lookup x (class_mro (w_class w))), w).
Proof. reflexivity. Qed.

(** What a read through an instance depends on: the instance's own binding of
    the name, if the instance exists, and the class. *)
Lemma getattr_object_spec (w : world) (obj : nat) (x : string) :
  getattr_object obj x w =
    (match (λ d : gmap string value, d !! x) <$> w_objects w !! obj with
     | None => Raise NotModelled
     | Some (Some v) => Ok v
     | Some None => found (mro_lookup x (class_mro (w_class w)))
     end, w).
Proof.
  unfold getattr_object. destruct (w_objects w !! obj) as [d|]; [| done].
  simpl. by destruct (d !! x).
Qed.

Lemma instantiate_then_read (w : world) (x : string) :
  run (obj ← instantiate; getattr_object obj x)%py w =
    found (mro_lookup x (class_mro (w_class w))).
Proof.
  unfold run, py_bind, instantiate. rewrite getattr_object_spec.
  cbn [fst w_objects w_class]. rewrite list_lookup_middle by done.
  simpl. by rewrite lookup_empty.
Qed.

(** Reads and instantiations leave the class alone, and every instance they
    make has an empty dictionary. *)
Lemma perform_class (w : world) (a : access) : w_class (perform w a) = w_class w.
Proof.
  destruct a as [x | obj x |]; unfold perform, exec; [done | | done].
  by rewrite getattr_object_spec.
Qed.

Lemma perform_objects (w : world) (a : access) :
  Forall (λ d, d = ∅) (w_objects w) → Forall (λ d, d = ∅) (w_objects (perform w a)).
Proof.
  intros H. destruct a as [x | obj x |]; unfold perform, exec; [done | |].
  - by rewrite getattr_object_spec.
  - simpl. apply Forall_app. split; [done | by constructor].
Qed.

Lemma after_class (prior : list access) (w : world) :
  w_class (after prior w) = w_class w.
Proof.
  revert w. induction prior as [|a prior IH]; intros w; [done |].
  change (after (a :: prior) w) with (after prior (perform w a)).
  rewrite IH. apply perform_class.
Qed.

Lemma after_objects (prior : list access) (w : world) :
  Forall (λ d, d = ∅) (w_objects w) →
  Forall (λ d, d = ∅) (w_objects (after prior w)).
Proof.
  revert w. induction prior as [|a prior IH]; intros w H; [done |].
  change (after (a :: prior) w) with (after prior (perform w a)).
  by apply IH, perform_objects.
Qed.

(** In a store reached from the import by reads and instantiations, every
    attribute is read from the class's own namespace. *)
Lemma lookup_after_import (env : environment) (w : world) (prior : list access)
    (a : attribute) :
  import_module env = Ok w →
  ∃ v, cls_dict (w_class (after prior w)) !! attr_name a = Some v
       ∧ (∀ fr, f_locals (exec body fr) !! attr_name a = Some v)
       ∧ mro_lookup (attr_name a) (class_mro (w_class (after prior w))) = Some v.
Proof.
  intros Hw. destruct (import_module_ok env) as (w' & Hw' & _ & _ & Hd).
  rewrite Hw in Hw'. injection Hw' as <-.
  rewrite after_class, Hd. eexists. split; [apply body_binds |].
  split; [intros; apply body_binds |].
  unfold class_mro. simpl. by rewrite Hd, body_binds.
Qed.

(** C6: the holder is deterministic.  Import the module in any two
    environments and perform any reads and instantiations in each: every one
    of the eight attributes then reads as one and the same value in both,
    through the class, through a new instance and through every instance
    made before. *)
Theorem configuration_is_deterministic (env1 env2 : environment)
    (prior1 prior2 : list access) (a : attribute) :
  ∃ (w1 w2 : world) (v : value),
    import_module env1 = Ok w1
    ∧ import_module env2 = Ok w2
    ∧ Forall (λ w,
                run (getattr_class (attr_name a)) w = Ok v
                ∧ run (obj ← instantiate; getattr_object obj (attr_name a))%py w = Ok v
                ∧ ∀ obj, is_Some (w_objects w !! obj) →
                         run (getattr_object obj (attr_name a)) w = Ok v)
             [after prior1 w1; after prior2 w2].
Proof.
  destruct (import_module_ok env1) as (w1 & Hw1 & Ho1 & _ & _).
  destruct (import_module_ok env2) as (w2 & Hw2 & Ho2 & _ & _).
  destruct (lookup_after_import env1 w1 prior1 a Hw1) as (v & _ & Hv & Hm1).
  destruct (lookup_after_import env2 w2 prior2 a Hw2) as (v' & _ & Hv' & Hm2).
  assert (v' = v) as ->.
  { specialize (Hv (Frame ∅ ∅ ∅)). specialize (Hv' (Frame ∅ ∅ ∅)). congruence. }
  exists w1, w2, v. split; [done |]. split; [done |].
  assert (∀ w prior, w_objects w = [] →
            mro_lookup (attr_name a) (class_mro (w_class (after prior w))) = Some v →
            run (getattr_class (attr_name a)) (after prior w) = Ok v
            ∧ run (obj ← instantiate; getattr_object obj (attr_name a))%py
                  (after prior w) = Ok v
            ∧ ∀ obj, is_Some (w_objects (after prior w) !! obj) →
                     run (getattr_object obj (attr_name a)) (after prior w) = Ok v)
    as Hall.
  { intros w prior Ho Hm. split; [| split].
    - unfold run. by rewrite getattr_class_spec, Hm.
    - by rewrite instantiate_then_read, Hm.
    - intros obj [d Hd]. unfold run. rewrite getattr_object_spec, Hd. simpl.
      assert (Forall (λ d, d = ∅) (w_objects (after prior w))) as Hempty.
      { apply after_objects. rewrite Ho. constructor. }
      rewrite (Forall_lookup_1 _ _ _ _ Hempty Hd), lookup_empty.
      unfold class_mro in Hm. simpl in Hm. by rewrite Hm. }
  constructor; [by apply Hall |]. constructor; [by apply Hall | constructor].
Qed.



(** ** Reassigning the username *)

Section username_reassignment.
Variable x : string.
Hypothesis Hx : x ≠ "MQTT_USERNAME".

(** One reassignment changes neither what the class resolves [x] to nor
    what any instance binds [x] to. *)
Lemma reassign_one_frame (w : world) (r : reassignment) :
  mro_lookup x (class_mro (w_class (reassign_one w r)))
    = mro_lookup x (class_mro (w_class w))
  ∧ ∀ obj, (λ d : gmap string value, d !! x) <$> w_objects (reassign_one w r) !! obj
           = (λ d : gmap string value, d !! x) <$> w_objects w !! obj.
Proof using Hx.
  destruct r as [v | target v]; unfold reassign_one, exec.
  - split; [| done]. unfold setattr_class, class_mro. simpl.
    by rewrite lookup_insert_ne.
  - unfold setattr_object.
    destruct (w_objects w !! target) as [d|] eqn:Hd; [| done].
    split; [done |]. intros obj. simpl.
    destruct (decide (obj = target)) as [-> | Hne].
    + rewrite list_lookup_insert_eq by (by eapply lookup_lt_Some).
      rewrite Hd. simpl. by rewrite lookup_insert_ne.
    + by rewrite list_lookup_insert_ne.
Qed.

Lemma reassign_frame (rs : list reassignment) (w : world) :
  mro_lookup x (class_mro (w_class (reassign rs w)))
    = mro_lookup x (class_mro (w_class w))
  ∧ ∀ obj, (λ d : gmap string value, d !! x) <$> w_objects (reassign rs w) !! obj
           = (λ d : gmap string value, d !! x) <$> w_objects w !! obj.
Proof using Hx.
  revert w. induction rs as [|r rs IH]; intros w; [done |].
  change (reassign (r :: rs) w) with (reassign rs (reassign_one w r)).
  destruct (IH (reassign_one w r)) as [Hc Ho].
  destruct (reassign_one_frame w r) as [Hc1 Ho1].
  split; [by rewrite Hc | intros obj; by rewrite Ho].
Qed.

Lemma reassign_reads (rs : list reassignment) (w : world) :
  run (getattr_class x) (reassign rs w) = run (getattr_class x) w
  ∧ ∀ obj, run (getattr_object obj x) (reassign rs w)
           = run (getattr_object obj x) w.
Proof using Hx.
  destruct (reassign_frame rs w) as [Hc Ho]. unfold run. split.
  - by rewrite !getattr_class_spec, Hc.
  - intros obj. by rewrite !getattr_object_spec, Hc, Ho.
Qed.
End username_reassignment.



(** * Further properties of the class body and of the class *)

(** ** What the body writes *)

Lemma body_other_names (fr : frame) (x : string) :
  (∀ a, x ≠ attr_name a) → f_locals (exec body fr) !! x = f_locals fr !! x.
Proof.
  intros Hx. unfold exec. rewrite body_runs. unfold bound. cbn [snd f_locals].
  pose proof (Hx BROKER_ADDRESS). pose proof (Hx BROKER_PORT).
  pose proof (Hx MQTT_USERNAME). pose proof (Hx MQTT_PASSWORD).
  pose proof (Hx MQTT_BASIC_TOPIC). pose proof (Hx VEHICLE_TOPIC).
  pose proof (Hx VEHICLE_TELEMETRY_TOPIC). pose proof (Hx VEHICLE_INFO_TOPIC).
  cbn [attr_name] in *. by rewrite !lookup_insert_ne by congruence.
Qed.

(** The body leaves alone what is not its own.  A name that is not one of
    the eight, and is not one of the interpreter's special names (those that
    begin with two underscores, some of which the class machinery sets
    itself), keeps the binding, or the absence of one, that it had in the
    namespace; the globals and the builtins are not written at all. *)
Theorem body_writes_only_its_names (fr : frame) (x : string)
    (Hx : ∀ a, x ≠ attr_name a) (Hplain : startswith "__" x = false) :
  f_locals (exec body fr) !! x = f_locals fr !! x
  ∧ f_globals (exec body fr) = f_globals fr
  ∧ f_builtins (exec body fr) = f_builtins fr.
Proof.
  split; [by apply body_other_names |].
  unfold exec. by rewrite body_runs.
Qed.

Lemma body_keeps_foreign_binding :
  (∀ a, "DEBUG" ≠ attr_name a)
  ∧ startswith "__" "DEBUG" = false
  ∧ f_locals (exec body (Frame {["DEBUG" := VInt 1]} ∅ ∅)) !! "DEBUG"
    = Some (VInt 1).
Proof.
  split; [intros a; destruct a; discriminate |]. split; [reflexivity |].
  rewrite (proj1 (body_writes_only_its_names
                    (Frame {["DEBUG" := VInt 1]} ∅ ∅) "DEBUG"
                    ltac:(intros a; destruct a; discriminate) eq_refl)).
  reflexivity.
Defined.

Lemma body_globals_builtins (fr : frame) :
  f_globals (exec body fr) = f_globals fr
  ∧ f_builtins (exec body fr) = f_builtins fr.
Proof. unfold exec. by rewrite body_runs. Qed.

Lemma frame_eq (fr1 fr2 : frame) :
  f_locals fr1 = f_locals fr2 → f_globals fr1 = f_globals fr2 →
  f_builtins fr1 = f_builtins fr2 → fr1 = fr2.
Proof. destruct fr1, fr2. simpl. by intros -> -> ->. Qed.

(** The binding the body makes for attribute [a] does not depend on the frame
    the body started from. *)
Lemma body_binds_same (fr1 fr2 : frame) (a : attribute) :
  f_locals (exec body fr1) !! attr_name a = f_locals (exec body fr2) !! attr_name a.
Proof. by rewrite !body_binds. Qed.

Lemma attr_name_cases (i : string) :
  (∃ a, i = attr_name a) ∨ (∀ a, i ≠ attr_name a).
Proof.
  destruct (decide (i = "BROKER_ADDRESS")); [left; by exists BROKER_ADDRESS |].
  destruct (decide (i = "BROKER_PORT")); [left; by exists BROKER_PORT |].
  destruct (decide (i = "MQTT_USERNAME")); [left; by exists MQTT_USERNAME |].
  destruct (decide (i = "MQTT_PASSWORD")); [left; by exists MQTT_PASSWORD |].
  destruct (decide (i = "MQTT_BASIC_TOPIC")); [left; by exists MQTT_BASIC_TOPIC |].
  destruct (decide (i = "VEHICLE_TOPIC")); [left; by exists VEHICLE_TOPIC |].
  destruct (decide (i = "VEHICLE_TELEMETRY_TOPIC"));
    [left; by exists VEHICLE_TELEMETRY_TOPIC |].
  destruct (decide (i = "VEHICLE_INFO_TOPIC"));
    [left; by exists VEHICLE_INFO_TOPIC |].
  right. intros a. by destruct a.
Qed.

(** Executing the body over the namespace it has just produced changes
    nothing: the eight bindings are simply made again. *)
Theorem body_idempotent (fr : frame) : exec body (exec body fr) = exec body fr.
Proof.
  destruct (body_globals_builtins (exec body fr)) as [Hg Hb].
  apply frame_eq; [| done | done].
  apply map_eq. intros i.
  destruct (attr_name_cases i) as [[a ->] | Hnone].
  - apply body_binds_same.
  - by apply body_other_names.
Qed.

(** ** The statement that derives the topic, in every frame *)

(** Line 7 over every frame.  If [MQTT_USERNAME] resolves to a string, the
    statement succeeds and binds the prefix followed by that string.  If it
    resolves to an integer of at most 640 decimal digits (a length that every
    setting of the interpreter's limit on integer-to-string conversion
    accepts), the statement succeeds and binds the prefix followed by the
    integer in decimal.  If the name is bound nowhere, the statement raises
    [NameError] and leaves the frame as it was. *)
Theorem basic_topic_statement_outcomes (fr : frame) :
  match run (load_name "MQTT_USERNAME") fr with
  | Ok (VStr u) =>
      stmt_MQTT_BASIC_TOPIC fr =
        (Ok tt, bound "MQTT_BASIC_TOPIC" (VStr ("/iot/user/" +:+ u)) fr)
  | Ok (VInt z) =>
      Z.abs z < 10 ^ 640 →
      stmt_MQTT_BASIC_TOPIC fr =
        (Ok tt,
         bound "MQTT_BASIC_TOPIC"
           (VStr ("/iot/user/" +:+ NilZero.string_of_int (Z.to_int z))) fr)
  | Raise e =>
      e = NameError
      ∧ f_locals fr !! "MQTT_USERNAME" = None
      ∧ f_globals fr !! "MQTT_USERNAME" = None
      ∧ f_builtins fr !! "MQTT_USERNAME" = None
      ∧ stmt_MQTT_BASIC_TOPIC fr = (Raise NameError, fr)
  end.
Proof.
  destruct (run (load_name "MQTT_USERNAME") fr) as [[u | z] | e] eqn:Hrun.
  - by apply (basic_topic_statement (VStr u)).
  - intros _. by apply (basic_topic_statement (VInt z)).
  - unfold stmt_MQTT_BASIC_TOPIC, assign, py_bind, load_const, py_ret.
    unfold run, load_name in *.
    destruct (f_locals fr !! "MQTT_USERNAME"); [done |].
    destruct (f_globals fr !! "MQTT_USERNAME"); [done |].
    destruct (f_builtins fr !! "MQTT_USERNAME"); [done |].
    simpl in Hrun. by injection Hrun as <-.
Qed.

(** ** Attributes the class does not define *)

(** An ordinary name that the class does not define.  A name that is not one
    of the eight, does not begin with two underscores and is not [mro] (the
    names the class machinery and the metatype answer themselves) is looked
    up in what the class namespace held before the body ran and then in the
    base class; bound in neither, reading it raises [AttributeError]. *)
Theorem undefined_attribute_lookup (env : environment) (x : string)
    (Hx : ∀ a, x ≠ attr_name a)
    (Hplain : startswith "__" x = false) (Hmro : x ≠ "mro") :
  read_class env x = found (mro_lookup x [env_prepared env; env_object env])
  ∧ (env_prepared env !! x = None → env_object env !! x = None →
     read_class env x = Raise AttributeError).
Proof.
  assert (read_class env x
          = found (mro_lookup x [env_prepared env; env_object env])) as Hread.
  { unfold read_class.
    destruct (import_module_ok env) as (w & -> & _ & Hb & Hd).
    unfold run. rewrite getattr_class_spec. unfold class_mro.
    rewrite Hb, Hd. cbn [fst mro_lookup].
    by rewrite (body_other_names _ x Hx). }
  split; [done |]. intros Hp Ho. rewrite Hread. cbn [mro_lookup].
  by rewrite Hp, Ho.
Qed.

Lemma undefined_attribute_raises :
  (∀ a, "BROKER" ≠ attr_name a)
  ∧ startswith "__" "BROKER" = false
  ∧ "BROKER" ≠ "mro"
  ∧ read_class (Environment ∅ ∅ ∅ ∅) "BROKER" = Raise AttributeError.
Proof.
  split; [intros a; destruct a; discriminate |].
  split; [reflexivity |]. split; [discriminate |].
  apply (undefined_attribute_lookup (Environment ∅ ∅ ∅ ∅) "BROKER");
    [intros a; destruct a; discriminate | reflexivity | discriminate
    | reflexivity | reflexivity].
Defined.

(** ** The topic as a function of the username *)

(** Two usernames give the same topic only if they are the same username. *)
Theorem basic_topic_injective (u1 u2 : string) :
  str_format "/iot/user/{0}" [VStr u1] = str_format "/iot/user/{0}" [VStr u2]
  ↔ u1 = u2.
Proof.
  split; [| by intros ->].
  rewrite !format_topic_template. cbn [format_value]. intros H.
  cbv [String.append] in H. by injection H.
Qed.

Lemma endswith_slash_cons (c : ascii) (s : string) :
  s ≠ "" → endswith "/" (String c s) = endswith "/" s.
Proof.
  destruct s as [|c' s']; [done |]. intros _. unfold endswith.
  cbn [String.length Nat.leb Nat.sub String.substring].
  by rewrite Nat.sub_0_r.
Qed.

Lemma length_topic_prefix (u : string) :
  String.length ("/iot/user/" +:+ u) = (10 + String.length u)%nat.
Proof. reflexivity. Qed.

(** For every username the topic starts with ["/"] and is ten characters
    longer than the username; it ends with ["/"] exactly when the username is
    empty or itself ends with ["/"]. *)
Theorem basic_topic_shape_for_any_username (u : string) :
  ∃ t, str_format "/iot/user/{0}" [VStr u] = Ok t
       ∧ startswith "/" t = true
       ∧ String.length t = (10 + String.length u)%nat
       ∧ endswith "/" t = match u with
                          | EmptyString => true
                          | String _ _ => endswith "/" u
                          end.
Proof.
  exists ("/iot/user/" +:+ u).
  split; [apply (format_topic_template (VStr u)) |].
  split; [reflexivity |]. split; [apply length_topic_prefix |].
  destruct u as [|c u]; [reflexivity |].
  cbv [String.append]. by rewrite !endswith_slash_cons by done.
Qed.

(** A template without braces is returned as it is, whatever the
    arguments. *)
Theorem format_plain_text (s : string) (args : list value)
    (Hopen : contains_char "{" s = false)
    (Hclose : contains_char "}" s = false) :
  str_format s args = Ok s.
Proof.
  unfold str_format. induction s as [|c s IH]; [done |].
  cbn [contains_char] in Hopen, Hclose.
  apply orb_false_iff in Hopen as [Ho1 Ho2].
  apply orb_false_iff in Hclose as [Hc1 Hc2].
  cbn [format_scan]. rewrite (Ascii.eqb_sym c "{"), Ho1.
  rewrite (Ascii.eqb_sym c "}"), Hc1. by rewrite IH.
Qed.

Lemma format_topic_prefix_alone :
  contains_char "{" "/iot/user/" = false
  ∧ contains_char "}" "/iot/user/" = false
  ∧ str_format "/iot/user/" [VStr "alice"] = Ok "/iot/user/".
Proof.
  split; [reflexivity |]. split; [reflexivity |].
  apply (format_plain_text "/iot/user/" [VStr "alice"]); reflexivity.
Defined.

(** ** Reassignment, again *)

(** Once the username of the class is reassigned to a different string, the
    topic the class holds is no longer the one its username would derive. *)
Theorem basic_topic_stale_after_reassignment (env : environment) (u : string)
    (Hu : u ≠ "<your_username>") :
  ∃ (w0 : world) (t : string),
    import_module env = Ok w0
    ∧ run (getattr_class "MQTT_USERNAME") (reassign [OnClass (VStr u)] w0)
      = Ok (VStr u)
    ∧ run (getattr_class "MQTT_BASIC_TOPIC") (reassign [OnClass (VStr u)] w0)
      = Ok (VStr t)
    ∧ str_format "/iot/user/{0}" [VStr u] ≠ Ok t.
Proof.
  destruct (import_module_ok env) as (w0 & Hw0 & _).
  exists w0, "/iot/user/<your_username>". split; [done |]. split; [| split].
  - change (reassign [OnClass (VStr u)] w0)
      with (reassign_one w0 (OnClass (VStr u))).
    unfold run, reassign_one, exec, setattr_class.
    rewrite getattr_class_spec. unfold class_mro. simpl.
    by rewrite lookup_insert_eq.
  - rewrite (proj1 (reassign_reads "MQTT_BASIC_TOPIC" ltac:(done) _ w0)).
    destruct (lookup_after_import env w0 [] MQTT_BASIC_TOPIC Hw0)
      as (v & _ & Hv & Hm).
    change (mro_lookup "MQTT_BASIC_TOPIC" (class_mro (w_class w0)) = Some v) in Hm.
    unfold run. rewrite getattr_class_spec, Hm.
    specialize (Hv (Frame ∅ ∅ ∅)).
    rewrite (body_binds _ MQTT_BASIC_TOPIC) in Hv. by injection Hv as <-.
  - rewrite format_topic_template. cbn [format_value]. intros H.
    cbv [String.append] in H. injection H as ->. by apply Hu.
Qed.

Lemma basic_topic_stale_for_alice :
  "alice" ≠ "<your_username>"
  ∧ ∃ (w0 : world) (t : string),
      import_module (Environment ∅ ∅ ∅ ∅) = Ok w0
      ∧ run (getattr_class "MQTT_USERNAME") (reassign [OnClass (VStr "alice")] w0)
        = Ok (VStr "alice")
      ∧ run (getattr_class "MQTT_BASIC_TOPIC")
            (reassign [OnClass (VStr "alice")] w0)
        = Ok (VStr t)
      ∧ str_format "/iot/user/{0}" [VStr "alice"] ≠ Ok t.
Proof.
  split; [discriminate |].
  apply (basic_topic_stale_after_reassignment (Environment ∅ ∅ ∅ ∅) "alice").
  discriminate.
Defined.

(** ** Writes through the class and through an instance *)




